(** * The conscience ("secondary") model of the Bergeron defense

    A shallow embedding of [src/framework/secondary.py]: class [Secondary].

    Python [str] values are modelled by [string]; a character is a code
    point below 256 (Latin-1), which covers every literal of the module.
    What the module imports (the pretrained-model library, the base class
    [FrameworkModel] and the template constants of [src.strings]) is kept
    abstract, as the fields of the classes [Pretrained] and [Framework]. *)

From Stdlib Require Import String Ascii List Bool Arith Lia Permutation.
Import ListNotations.
Local Open Scope string_scope.

(** ** Python strings *)

Module PyStr.

(** [str.lower] on one code point below 256: the upper-case letters are
    [A-Z] (65..90) and the Latin-1 capitals 192..222 except the
    multiplication sign 215; each is moved 32 places up. *)
Definition lower_char (c : ascii) : ascii :=
  let n := nat_of_ascii c in
  if (((65 <=? n) && (n <=? 90))
      || ((192 <=? n) && (n <=? 222) && negb (n =? 215)))%nat
  then ascii_of_nat (n + 32)
  else c.

Fixpoint lower (s : string) : string :=
  match s with
  | EmptyString => EmptyString
  | String c s' => String (lower_char c) (lower s')
  end.

(** [needle in hay]: the substring test of Python's [in] on [str],
    scanning the start positions of [hay] from the left. *)
Fixpoint str_in (needle hay : string) : bool :=
  if String.prefix needle hay then true
  else match hay with
       | EmptyString => false
       | String _ hay' => str_in needle hay'
       end.

(** The mathematical reading of "is a substring of". *)
Definition substring_of (needle hay : string) : Prop :=
  exists pre post, hay = pre ++ needle ++ post.

(** "Contains [needle] as a case-insensitive substring": some stretch of
    [hay] equals [needle] once the case of the letters is forgotten. *)
Definition ci_substring_of (needle hay : string) : Prop :=
  exists pre mid post,
    hay = pre ++ mid ++ post /\ lower mid = lower needle.

End PyStr.

(** ** The validity heuristic *)

(** [no_critique_flags] of [Secondary.is_valid_critique]. *)
Definition no_critique_flags : list string :=
  ["no change"; "not change"; "not adversarial"].

(** The [for flag in no_critique_flags] loop with its early [return False];
    falling out of the loop returns [True]. *)
Fixpoint is_valid_critique_loop (flags : list string) (critique : string) : bool :=
  match flags with
  | [] => true
  | flag :: rest =>
      if PyStr.str_in (PyStr.lower flag) (PyStr.lower critique) then false
      else is_valid_critique_loop rest critique
  end.

Definition is_valid_critique (critique : string) : bool :=
  is_valid_critique_loop no_critique_flags critique.

(** The denylist in the spec's words: [s] contains a negative marker, in
    any case of its letters. *)
Definition has_negative_marker (s : string) : Prop :=
  PyStr.ci_substring_of "no change" s \/
  PyStr.ci_substring_of "not change" s \/
  PyStr.ci_substring_of "not adversarial" s.

(** ** Python calls: outcomes and effects *)

(** A call either returns a value or raises an exception. *)
Inductive result (E A : Type) : Type :=
| Ok (a : A)
| Raise (e : E).
Arguments Ok {E A} a.
Arguments Raise {E A} e.

(** A computation over a mutable state [S] that may raise.  The state
    reached when the exception is raised is kept: nothing is rolled back. *)
Definition M (E S A : Type) : Type := S -> result E A * S.

Definition ret {E S A} (a : A) : M E S A := fun s => (Ok a, s).

(** Sequencing: an exception of the first computation propagates, the
    second one is not run. *)
Definition bind {E S A B} (m : M E S A) (f : A -> M E S B) : M E S B :=
  fun s =>
    match m s with
    | (Ok a, s') => f a s'
    | (Raise e, s') => (Raise e, s')
    end.

(** A pure expression evaluated inside a computation. *)
Definition lift {E S A} (r : result E A) : M E S A := fun s => (r, s).

Declare Scope py_scope.
Delimit Scope py_scope with py.
Notation "x <- m ;; k" := (bind m (fun x => k))
  (at level 61, m at next level, right associativity) : py_scope.
Notation "' pat <- m ;; k" := (bind m (fun pat => k))
  (at level 61, pat pattern, m at next level, right associativity) : py_scope.

(** ** Prompt templates and [str.format] *)

Module Template.

(** Modelled from the spec: the four template constants of [src.strings]
    are fixed strings with named substitution slots.  A template is kept
    parsed: literal text and slots [{name}] in their order. *)
Inductive piece : Type :=
| Lit (text : string)
| Slot (name : string).

Definition t : Type := list piece.

(** The keyword arguments of a call, in the order they are written. *)
Definition kwargs : Type := list (string * string).

Fixpoint lookup (name : string) (kw : kwargs) : option string :=
  match kw with
  | [] => None
  | (k, v) :: kw' => if String.eqb k name then Some v else lookup name kw'
  end.

(** [tpl.format( **kw )]: the pieces are rendered from left to right; a
    slot whose name is no keyword raises [KeyError]; keywords that no slot
    names are ignored; the substituted text is not scanned again. *)
Fixpoint format {E : Type} (KeyError : string -> E) (tpl : t) (kw : kwargs)
  : result E string :=
  match tpl with
  | [] => Ok ""
  | Lit text :: rest =>
      match format KeyError rest kw with
      | Ok out => Ok (text ++ out)
      | Raise e => Raise e
      end
  | Slot name :: rest =>
      match lookup name kw with
      | None => Raise (KeyError name)
      | Some v =>
          match format KeyError rest kw with
          | Ok out => Ok (v ++ out)
          | Raise e => Raise e
          end
      end
  end.

(** The slots of [tpl] are exactly the names [names]. *)
Definition has_slots (tpl : t) (names : list string) : Prop :=
  forall name, In (Slot name) tpl <-> In name names.

End Template.

(** ** External collaborators *)

(** The pretrained-model library [universalmodels] and the Python values it
    hands out.  [World] is everything the library can read or change
    (files, network, devices, the internal state of the loaded models). *)
Class Pretrained : Type := {
  Model : Type;
  Tokenizer : Type;
  ModelInfo : Type;
  ModelSrc : Type;
  AUTO : ModelSrc;
  Kwargs : Type;
  Exn : Type;
  KeyError : string -> Exn;
  World : Type;
  name_or_path : Model -> string;
  model_info_from_name :
    string -> ModelSrc -> string -> World -> result Exn ModelInfo * World;
  pretrained_from_info :
    ModelInfo -> World -> result Exn (Model * Tokenizer) * World
}.

(** The attributes of a [Secondary] instance. *)
Record Secondary `{Pretrained} : Type := {
  critique_model : Model;
  critique_tokenizer : Tokenizer;
  rephrase_model : Model;
  rephrase_tokenizer : Tokenizer
}.

(** The parts of the repository that [secondary.py] imports:
    [FrameworkModel.generate_using], inherited by [Secondary] and so called
    with access to the instance, and the template constants of
    [src.strings]. *)
Class Framework `{Pretrained} : Type := {
  generate_using :
    string -> Model -> Tokenizer -> Kwargs -> Secondary -> World ->
    result Exn string * (Secondary * World);
  PROMPT_CRITIQUE_PROMPT : Template.t;
  RESPONSE_CRITIQUE_PROMPT : Template.t;
  CONSCIENCE_DISCLAIMER_PROMPT : Template.t;
  RESPONSE_CORRECTION_PROMPT : Template.t
}.

(** A call that leaves the module, with its arguments. *)
Inductive Call `{Pretrained} : Type :=
| ModelInfoFromName (name : string) (src : ModelSrc) (task : string)
| PretrainedFromInfo (info : ModelInfo)
| GenerateUsing (prompt : string) (model : Model) (tokenizer : Tokenizer)
    (kwargs : Kwargs).

(** The world outside an instance, with the log of the outgoing calls. *)
Record Env `{Pretrained} : Type := {
  world : World;
  calls : list Call
}.

(** What a method runs on: the instance and the world outside it. *)
Record State `{Pretrained} : Type := {
  self : Secondary;
  env : Env
}.

(** [e] after outgoing calls [new] that left the world as [w]. *)
Definition logged `{Pretrained} (e : Env) (w : World) (new : list Call) : Env :=
  {| world := w; calls := calls e ++ new |}.

(** The descriptor resolutions of a call log, in order: name, source hint
    and task tag of each. *)
Fixpoint resolutions `{Pretrained} (log : list Call)
  : list (string * ModelSrc * string) :=
  match log with
  | [] => []
  | ModelInfoFromName name src task :: log' =>
      (name, src, task) :: resolutions log'
  | _ :: log' => resolutions log'
  end.

(** An optional argument: the value passed, or the default of the
    signature when it is left out. *)
Definition arg_or {A : Type} (passed : option A) (default : A) : A :=
  match passed with
  | Some a => a
  | None => default
  end.

(** The four references of the instance are the same in both states. *)
Definition same_references `{Pretrained} (st st' : State) : Prop :=
  critique_model (self st') = critique_model (self st) /\
  critique_tokenizer (self st') = critique_tokenizer (self st) /\
  rephrase_model (self st') = rephrase_model (self st) /\
  rephrase_tokenizer (self st') = rephrase_tokenizer (self st).

(** ** Class [Secondary] *)

Section SecondaryModel.
Context {P : Pretrained} {F : Framework}.
Local Open Scope py_scope.

(** Outgoing calls, each one logged with its arguments. *)
Definition call_model_info_from_name (name : string) (src : ModelSrc)
  (task : string) : M Exn Env ModelInfo :=
  fun e =>
    let (r, w) := model_info_from_name name src task (world e) in
    (r, {| world := w;
           calls := calls e ++ [ModelInfoFromName name src task] |}).

Definition call_pretrained_from_info (info : ModelInfo)
  : M Exn Env (Model * Tokenizer) :=
  fun e =>
    let (r, w) := pretrained_from_info info (world e) in
    (r, {| world := w; calls := calls e ++ [PretrainedFromInfo info] |}).

Definition call_generate_using (prompt : string) (model : Model)
  (tokenizer : Tokenizer) (kwargs : Kwargs) : M Exn State string :=
  fun st =>
    let '(r, (s, w)) :=
      generate_using prompt model tokenizer kwargs (self st) (world (env st)) in
    (r, {| self := s;
           env := {| world := w;
                     calls := calls (env st)
                              ++ [GenerateUsing prompt model tokenizer kwargs] |} |}).

(** Reading an attribute of [self]. *)
Definition attr {A : Type} (field : Secondary -> A) : M Exn State A :=
  fun st => (Ok (field (self st)), st).

(** [Secondary.__init__]: two tuple assignments, in this order. *)
Definition __init__ (critique_model_info rephrase_model_info : ModelInfo)
  : M Exn Env Secondary :=
  '(cm, ct) <- call_pretrained_from_info critique_model_info ;;
  '(rm, rt) <- call_pretrained_from_info rephrase_model_info ;;
  ret {| critique_model := cm; critique_tokenizer := ct;
         rephrase_model := rm; rephrase_tokenizer := rt |}.

(** [Secondary.from_model_names]; an argument left out is [None] and takes
    its default. *)
Definition from_model_names (secondary_model_name : string)
  (rephrase_model_name : option string)
  (secondary_model_src rephrase_model_src : option ModelSrc)
  : M Exn Env Secondary :=
  let rephrase_model_name := arg_or rephrase_model_name "dev/echo" in
  let secondary_model_src := arg_or secondary_model_src AUTO in
  let rephrase_model_src := arg_or rephrase_model_src AUTO in
  s_model_info <-
    call_model_info_from_name secondary_model_name secondary_model_src
      "conversational" ;;
  rephrase_model_info <-
    call_model_info_from_name rephrase_model_name rephrase_model_src
      "summarization" ;;
  __init__ s_model_info rephrase_model_info.

(** The property [Secondary.name]. *)
Definition name : M Exn State string :=
  model <- attr critique_model ;;
  ret ("S(" ++ name_or_path model ++ ")").

Definition generate (prompt : string) (kwargs : Kwargs) : M Exn State string :=
  model <- attr critique_model ;;
  tokenizer <- attr critique_tokenizer ;;
  call_generate_using prompt model tokenizer kwargs.

Definition rephrase (text : string) (kwargs : Kwargs) : M Exn State string :=
  model <- attr rephrase_model ;;
  tokenizer <- attr rephrase_tokenizer ;;
  call_generate_using text model tokenizer kwargs.

Definition critique_prompt (prompt : string) (kwargs : Kwargs)
  : M Exn State string :=
  text <- lift (Template.format KeyError PROMPT_CRITIQUE_PROMPT
                  [("prompt", prompt)]) ;;
  model <- attr critique_model ;;
  tokenizer <- attr critique_tokenizer ;;
  critique_response <- call_generate_using text model tokenizer kwargs ;;
  ret (if is_valid_critique critique_response then critique_response else "").

Definition critique_response (response : string) (kwargs : Kwargs)
  : M Exn State string :=
  text <- lift (Template.format KeyError RESPONSE_CRITIQUE_PROMPT
                  [("response", response)]) ;;
  model <- attr critique_model ;;
  tokenizer <- attr critique_tokenizer ;;
  critique_response <- call_generate_using text model tokenizer kwargs ;;
  ret (if is_valid_critique critique_response then critique_response else "").

(** The static methods: no [self], no outgoing call. *)
Definition make_conscience_prompt (prompt prompt_critique : string)
  : result Exn string :=
  Template.format KeyError CONSCIENCE_DISCLAIMER_PROMPT
    [("prompt_critique", prompt_critique); ("prompt", prompt)].

Definition make_correction_prompt (response response_critique : string)
  : result Exn string :=
  Template.format KeyError RESPONSE_CORRECTION_PROMPT
    [("response", response); ("response_critique", response_critique)].

(** The two critique operations, by what they critique. *)
Inductive critique_target : Type :=
| OfPrompt
| OfResponse.

Definition critique_of (target : critique_target)
  : string -> Kwargs -> M Exn State string :=
  match target with
  | OfPrompt => critique_prompt
  | OfResponse => critique_response
  end.

(** The text sent to the critique model for [x]. *)
Definition request_of (target : critique_target) (x : string)
  : result Exn string :=
  match target with
  | OfPrompt =>
      Template.format KeyError PROMPT_CRITIQUE_PROMPT [("prompt", x)]
  | OfResponse =>
      Template.format KeyError RESPONSE_CRITIQUE_PROMPT [("response", x)]
  end.

(** The outcome of the generation call that critiquing [x] in state [st]
    makes: the critique model of [self] run on the filled template. *)
Definition generation_of (target : critique_target) (x : string)
  (kwargs : Kwargs) (st : State) (out : result Exn string * (Secondary * World))
  : Prop :=
  exists request,
    request_of target x = Ok request /\
    generate_using request (critique_model (self st))
      (critique_tokenizer (self st)) kwargs (self st) (world (env st)) = out.

(** The state that this generation call leaves: the instance and the
    world it hands back, and one more entry in the log. *)
Definition after_generation (st : State) (request : string)
  (kwargs : Kwargs) (s : Secondary) (w : World) : State :=
  {| self := s;
     env := logged (env st) w
              [GenerateUsing request (critique_model (self st))
                 (critique_tokenizer (self st)) kwargs] |}.

(** The underlying generation call returns [text]. *)
Definition generation_returns (target : critique_target) (x : string)
  (kwargs : Kwargs) (st : State) (text : string) : Prop :=
  exists s w, generation_of target x kwargs st (Ok text, (s, w)).

(** An exception that comes from outside the module: raised by a
    collaborator, or the [KeyError] of [str.format]. *)
Definition raised_outside (err : Exn) : Prop :=
  (exists name src task w w',
      model_info_from_name name src task w = (Raise err, w')) \/
  (exists info w w', pretrained_from_info info w = (Raise err, w')) \/
  (exists prompt model tokenizer kwargs s w sw',
      generate_using prompt model tokenizer kwargs s w = (Raise err, sw')) \/
  (exists key, err = KeyError key).

End SecondaryModel.

(** ** A small provider to run the class on *)

Module Demo.

Inductive model_src : Type :=
| SrcAuto
| SrcLocal.

(** A descriptor is a name with its task; only the empty name is unknown. *)
Definition resolve (name : string) (src : model_src) (task : string)
  (w : nat) : result string (string * string) * nat :=
  if String.eqb name "" then (Raise "ValueError: no model name", w)
  else (Ok (name, task), w).

(** A model is its name; loading counts in the world. *)
Definition load (info : string * string) (w : nat)
  : result string (string * unit) * nat :=
  if String.eqb (fst info) "dev/missing" then (Raise "OSError: dev/missing", w)
  else (Ok (fst info, tt), S w).

#[export] Instance pretrained : Pretrained :=
  {| Model := string; Tokenizer := unit; ModelInfo := string * string;
     ModelSrc := model_src; AUTO := SrcAuto; Kwargs := unit;
     Exn := string; KeyError := fun key => "KeyError: " ++ key;
     World := nat; name_or_path := fun model => model;
     model_info_from_name := resolve; pretrained_from_info := load |}.

(** Inference by name: an echo model, one that runs out of memory, one
    that never objects, one that says nothing, and a critic with a fixed
    answer. *)
Definition infer (prompt model : string) (tokenizer kwargs : unit)
  (s : Secondary) (w : nat) : result string string * (Secondary * nat) :=
  if String.eqb model "dev/echo" then (Ok prompt, (s, S w))
  else if String.eqb model "dev/oom" then
    (Raise "RuntimeError: out of memory", (s, S w))
  else if String.eqb model "dev/agree" then (Ok "no change needed", (s, S w))
  else if String.eqb model "dev/silent" then (Ok "", (s, S w))
  else (Ok "This contains unsafe content; suggest revision", (s, S w)).

#[export] Instance framework : Framework :=
  {| generate_using := infer;
     PROMPT_CRITIQUE_PROMPT :=
       [Template.Lit "Critique this prompt: "; Template.Slot "prompt"];
     RESPONSE_CRITIQUE_PROMPT :=
       [Template.Lit "Critique this response: "; Template.Slot "response"];
     CONSCIENCE_DISCLAIMER_PROMPT :=
       [Template.Lit "Concerns: "; Template.Slot "prompt_critique";
        Template.Lit " Prompt: "; Template.Slot "prompt"];
     RESPONSE_CORRECTION_PROMPT :=
       [Template.Lit "Response: "; Template.Slot "response";
        Template.Lit " Critique: "; Template.Slot "response_critique"] |}.

(** An instance with the two models named, in a fresh world. *)
Definition instance (critic rephraser : string) : State :=
  {| self := {| critique_model := critic; critique_tokenizer := tt;
                rephrase_model := rephraser; rephrase_tokenizer := tt |};
     env := {| world := 0; calls := [] |} |}.

Definition start : Env := {| world := 0; calls := [] |}.

End Demo.

(** The same provider with templates that name a slot no call fills. *)

Module DemoStale.
Import Demo.

#[export] Instance framework : @Framework Demo.pretrained :=
  {| generate_using := Demo.infer;
     PROMPT_CRITIQUE_PROMPT :=
       [Template.Lit "Critique "; Template.Slot "prompt";
        Template.Lit " for "; Template.Slot "audience"];
     RESPONSE_CRITIQUE_PROMPT :=
       [Template.Slot "reply"; Template.Slot "response"];
     CONSCIENCE_DISCLAIMER_PROMPT :=
       [Template.Slot "prompt_critique"; Template.Slot "user";
        Template.Slot "prompt"];
     RESPONSE_CORRECTION_PROMPT :=
       [Template.Slot "response"; Template.Slot "critique"] |}.

End DemoStale.
(** ** Facts about Python strings *)

Module PyStrFacts.
Import PyStr.

Lemma append_nil_r (s : string) : s ++ "" = s.
Proof. induction s as [|c s IH]; simpl; [reflexivity | now rewrite IH]. Qed.

Lemma append_assoc (a b c : string) : (a ++ b) ++ c = a ++ b ++ c.
Proof. induction a as [|x a IH]; simpl; [reflexivity | now rewrite IH]. Qed.

Lemma lower_app (a b : string) : lower (a ++ b) = lower a ++ lower b.
Proof. induction a as [|x a IH]; simpl; [reflexivity | now rewrite IH]. Qed.

(** A lower-cased text that splits in two comes from a text that splits
    at the same place. *)
Lemma lower_split (s a b : string) :
  lower s = a ++ b ->
  exists s1 s2, s = s1 ++ s2 /\ lower s1 = a /\ lower s2 = b.
Proof.
  revert s. induction a as [|x a IH]; intros s H.
  - exists "", s. simpl in *. auto.
  - destruct s as [|c s]; simpl in H; [discriminate|].
    injection H as Hc Hs. destruct (IH _ Hs) as (s1 & s2 & -> & H1 & H2).
    exists (String c s1), s2. simpl. rewrite Hc, H1. auto.
Qed.

Lemma prefix_true_iff (n h : string) :
  String.prefix n h = true <-> exists post, h = n ++ post.
Proof.
  revert h. induction n as [|x n IH]; intros h.
  - split; [intros _; now exists h | intros _; now destruct h].
  - destruct h as [|c h]; simpl.
    + split; [discriminate | intros [post H]; discriminate].
    + destruct (ascii_dec x c) as [->|Hne].
      * rewrite IH. split; intros [post H]; exists post.
        -- now rewrite H.
        -- now injection H.
      * split; [discriminate | intros [post H]; injection H; congruence].
Qed.

Lemma str_in_unfold (n h : string) :
  str_in n h =
  if String.prefix n h then true
  else match h with
       | EmptyString => false
       | String _ h' => str_in n h'
       end.
Proof. destruct h; reflexivity. Qed.

(** Python's [in] decides the substring relation. *)
Lemma str_in_true_iff (n h : string) :
  str_in n h = true <-> substring_of n h.
Proof.
  unfold substring_of. induction h as [|c h IH]; rewrite str_in_unfold.
  - destruct (String.prefix n "") eqn:P.
    + split; [intros _ | reflexivity].
      apply prefix_true_iff in P. destruct P as [post P]. now exists "", post.
    + split; [discriminate|]. intros (pre & post & H).
      destruct pre; simpl in H; [|discriminate].
      assert (String.prefix n "" = true) by (apply prefix_true_iff; eauto).
      congruence.
  - destruct (String.prefix n (String c h)) eqn:P.
    + split; [intros _ | reflexivity].
      apply prefix_true_iff in P. destruct P as [post P]. now exists "", post.
    + rewrite IH. split.
      * intros (pre & post & ->). now exists (String c pre), post.
      * intros (pre & post & H). destruct pre as [|x pre]; simpl in H.
        -- assert (String.prefix n (String c h) = true)
             by (apply prefix_true_iff; eauto).
           congruence.
        -- injection H as _ H. eauto.
Qed.

(** Lower-casing both sides and testing [in] is the case-insensitive
    substring relation. *)
Lemma str_in_lower_iff (n h : string) :
  str_in (lower n) (lower h) = true <-> ci_substring_of n h.
Proof.
  rewrite str_in_true_iff. unfold substring_of, ci_substring_of. split.
  - intros (a & b & H).
    destruct (lower_split _ _ _ H) as (pre & rest & -> & _ & Hrest).
    destruct (lower_split _ _ _ Hrest) as (mid & post & -> & Hmid & _).
    now exists pre, mid, post.
  - intros (pre & mid & post & -> & Hmid).
    exists (lower pre), (lower post). now rewrite !lower_app, Hmid.
Qed.

Lemma substring_of_refl (s : string) : substring_of s s.
Proof. exists "", "". simpl. now rewrite append_nil_r. Qed.

Lemma substring_of_app_l (n a b : string) :
  substring_of n a -> substring_of n (a ++ b).
Proof.
  intros (pre & post & ->). exists pre, (post ++ b).
  now rewrite !append_assoc.
Qed.

Lemma substring_of_app_r (n a b : string) :
  substring_of n b -> substring_of n (a ++ b).
Proof.
  intros (pre & post & ->). exists (a ++ pre), post.
  now rewrite !append_assoc.
Qed.

End PyStrFacts.

Lemma is_valid_critique_loop_false_iff (flags : list string) (critique : string) :
  is_valid_critique_loop flags critique = false <->
  exists flag, In flag flags /\ PyStr.ci_substring_of flag critique.
Proof.
  induction flags as [|f rest IH]; simpl.
  - split; [discriminate | intros (? & [] & _)].
  - destruct (PyStr.str_in (PyStr.lower f) (PyStr.lower critique)) eqn:E.
    + split; [intros _ | reflexivity].
      exists f. split; [now left | now apply PyStrFacts.str_in_lower_iff].
    + rewrite IH. split.
      * intros (g & Hg & Hc). exists g. auto.
      * intros (g & [<- | Hg] & Hc); [|eauto].
        apply PyStrFacts.str_in_lower_iff in Hc. congruence.
Qed.

Example is_valid_critique_mixed_case :
  is_valid_critique "There is No Change needed" = false.
Proof. reflexivity. Qed.

Example is_valid_critique_unlisted_negation :
  is_valid_critique "nothing seems wrong" = true.
Proof. reflexivity. Qed.

Lemma is_valid_critique_false_iff (s : string) :
  is_valid_critique s = false <-> has_negative_marker s.
Proof.
  unfold is_valid_critique, has_negative_marker.
  rewrite is_valid_critique_loop_false_iff. unfold no_critique_flags. simpl.
  split.
  - intros (f & [<- | [<- | [<- | []]]] & H); auto.
  - intros [H | [H | H]]; eexists; (split; [|exact H]); auto.
Qed.

(** C1: [is_valid_critique s] is false exactly when [s] contains, as a
    case-insensitive substring, one of "no change", "not change" or
    "not adversarial"; it is true for every other string, and for the
    empty string. *)
Theorem C1_is_valid_critique_denylist :
  (forall s, is_valid_critique s = false <-> has_negative_marker s) /\
  (forall s, is_valid_critique s = true <-> ~ has_negative_marker s) /\
  is_valid_critique "" = true.
Proof.
  split; [exact is_valid_critique_false_iff|]. split; [|reflexivity].
  intros s. rewrite <- is_valid_critique_false_iff.
  destruct (is_valid_critique s); split; congruence.
Qed.

(** ** Facts about templates *)

Module TemplateFacts.
Import PyStr PyStrFacts Template.

Section Format.
Context {E : Type} (KeyError : string -> E).

(** Formatting succeeds when every slot is a keyword. *)
Lemma format_ok (tpl : t) (kw : kwargs) :
  (forall name, In (Slot name) tpl -> lookup name kw <> None) ->
  exists out, format KeyError tpl kw = Ok out.
Proof.
  induction tpl as [|[text|name] rest IH]; intros Hkw; simpl.
  - now exists "".
  - destruct IH as [out ->]; [intros n Hn; apply Hkw; now right|].
    now exists (text ++ out).
  - destruct (lookup name kw) as [v|] eqn:L.
    + destruct IH as [out ->]; [intros n Hn; apply Hkw; now right|].
      now exists (v ++ out).
    + exfalso. apply (Hkw name); [now left | exact L].
Qed.

(** The value of a keyword is in the output at each of its slots. *)
Lemma format_contains (tpl : t) (kw : kwargs) (out name v : string) :
  format KeyError tpl kw = Ok out ->
  In (Slot name) tpl ->
  lookup name kw = Some v ->
  substring_of v out.
Proof.
  revert out. induction tpl as [|[text|n] rest IH]; intros out Hf Hin Hl.
  - destruct Hin.
  - simpl in Hf. destruct Hin as [Hin|Hin]; [discriminate|].
    destruct (format KeyError rest kw) as [o|] eqn:F; [|discriminate].
    injection Hf as <-. apply substring_of_app_r. now apply IH.
  - simpl in Hf. destruct (lookup n kw) as [u|] eqn:L; [|discriminate].
    destruct (format KeyError rest kw) as [o|] eqn:F; [|discriminate].
    injection Hf as <-. destruct Hin as [Hin|Hin].
    + injection Hin as ->. rewrite L in Hl. injection Hl as ->.
      apply substring_of_app_l, substring_of_refl.
    + apply substring_of_app_r. now apply IH.
Qed.

End Format.

End TemplateFacts.

(** ** How the operations run *)

Section SecondaryRuns.
Context {P : Pretrained} {F : Framework}.

Lemma marker_invalid (text : string) :
  has_negative_marker text -> is_valid_critique text = false.
Proof. apply is_valid_critique_false_iff. Qed.

Lemma no_marker_valid (text : string) :
  ~ has_negative_marker text -> is_valid_critique text = true.
Proof.
  intros Hn. destruct (is_valid_critique text) eqn:V; [reflexivity|].
  now apply is_valid_critique_false_iff in V.
Qed.

(** [__init__] when the first pair cannot be loaded. *)
Lemma init_first_raises (ci ri : ModelInfo) (e : Env) (err : Exn) (w : World) :
  pretrained_from_info ci (world e) = (Raise err, w) ->
  __init__ ci ri e = (Raise err, logged e w [PretrainedFromInfo ci]).
Proof.
  intros H1. unfold __init__, bind, call_pretrained_from_info.
  now rewrite H1.
Qed.

(** [__init__] once the first pair is loaded. *)
Lemma init_second (ci ri : ModelInfo) (e : Env) (cm : Model) (ct : Tokenizer)
  (w1 : World) (r : result Exn (Model * Tokenizer)) (w2 : World) :
  pretrained_from_info ci (world e) = (Ok (cm, ct), w1) ->
  pretrained_from_info ri w1 = (r, w2) ->
  __init__ ci ri e =
  (match r with
   | Ok (rm, rt) =>
       Ok {| critique_model := cm; critique_tokenizer := ct;
             rephrase_model := rm; rephrase_tokenizer := rt |}
   | Raise err => Raise err
   end,
   logged e w2 [PretrainedFromInfo ci; PretrainedFromInfo ri]).
Proof.
  intros H1 H2. unfold __init__, bind, call_pretrained_from_info, logged.
  rewrite H1. simpl. rewrite H2. rewrite <- app_assoc. simpl.
  destruct r as [[rm rt]|err]; reflexivity.
Qed.

(** [from_model_names] when the critique name cannot be resolved. *)
Lemma from_names_first_raises (n : string) (r : option string)
  (ss rs : option ModelSrc) (e : Env) (err : Exn) (w : World) :
  model_info_from_name n (arg_or ss AUTO) "conversational" (world e)
    = (Raise err, w) ->
  from_model_names n r ss rs e =
  (Raise err,
   logged e w [ModelInfoFromName n (arg_or ss AUTO) "conversational"]).
Proof.
  intros H1. unfold from_model_names, bind, call_model_info_from_name.
  now rewrite H1.
Qed.

(** [from_model_names] when the rephrase name cannot be resolved. *)
Lemma from_names_second_raises (n : string) (r : option string)
  (ss rs : option ModelSrc) (e : Env) (si : ModelInfo) (w1 : World)
  (err : Exn) (w2 : World) :
  model_info_from_name n (arg_or ss AUTO) "conversational" (world e)
    = (Ok si, w1) ->
  model_info_from_name (arg_or r "dev/echo") (arg_or rs AUTO)
    "summarization" w1 = (Raise err, w2) ->
  from_model_names n r ss rs e =
  (Raise err,
   logged e w2
     [ModelInfoFromName n (arg_or ss AUTO) "conversational";
      ModelInfoFromName (arg_or r "dev/echo") (arg_or rs AUTO)
        "summarization"]).
Proof.
  intros H1 H2. unfold from_model_names, bind, call_model_info_from_name, logged.
  rewrite H1. simpl. rewrite H2. now rewrite <- app_assoc.
Qed.

(** [from_model_names] once both descriptors are resolved: the rest is
    direct construction. *)
Lemma from_names_delegates (n : string) (r : option string)
  (ss rs : option ModelSrc) (e : Env) (si : ModelInfo) (w1 : World)
  (ri : ModelInfo) (w2 : World) :
  model_info_from_name n (arg_or ss AUTO) "conversational" (world e)
    = (Ok si, w1) ->
  model_info_from_name (arg_or r "dev/echo") (arg_or rs AUTO)
    "summarization" w1 = (Ok ri, w2) ->
  from_model_names n r ss rs e =
  __init__ si ri
    (logged e w2
       [ModelInfoFromName n (arg_or ss AUTO) "conversational";
        ModelInfoFromName (arg_or r "dev/echo") (arg_or rs AUTO)
          "summarization"]).
Proof.
  intros H1 H2. unfold from_model_names, bind, call_model_info_from_name, logged.
  rewrite H1. simpl. rewrite H2. now rewrite <- app_assoc.
Qed.

(** The log of [__init__] grows by loads only. *)
Lemma init_log (ci ri : ModelInfo) (e : Env) :
  exists new,
    calls (snd (__init__ ci ri e)) = (calls e ++ new)%list /\
    resolutions new = [].
Proof.
  destruct (pretrained_from_info ci (world e)) as [[[cm ct]|err] w1] eqn:H1.
  - destruct (pretrained_from_info ri w1) as [r w2] eqn:H2.
    rewrite (init_second _ _ _ _ _ _ _ _ H1 H2). simpl. eauto.
  - rewrite (init_first_raises _ ri _ _ _ H1). simpl. eauto.
Qed.

(** [generate] and [rephrase]: one call of [generate_using], whose outcome
    is the outcome of the method. *)
Lemma generate_run (p : string) (kw : Kwargs) (st : State)
  (r : result Exn string) (s : Secondary) (w : World) :
  generate_using p (critique_model (self st)) (critique_tokenizer (self st))
    kw (self st) (world (env st)) = (r, (s, w)) ->
  generate p kw st = (r, after_generation st p kw s w).
Proof.
  intros Hg. unfold generate, bind, attr, call_generate_using. simpl.
  now rewrite Hg.
Qed.

Lemma rephrase_run (p : string) (kw : Kwargs) (st : State)
  (r : result Exn string) (s : Secondary) (w : World) :
  generate_using p (rephrase_model (self st)) (rephrase_tokenizer (self st))
    kw (self st) (world (env st)) = (r, (s, w)) ->
  rephrase p kw st =
  (r, {| self := s;
         env := logged (env st) w
                  [GenerateUsing p (rephrase_model (self st))
                     (rephrase_tokenizer (self st)) kw] |}).
Proof.
  intros Hg. unfold rephrase, bind, attr, call_generate_using. simpl.
  now rewrite Hg.
Qed.

(** A critique operation: the template is filled, the critique model is
    called once, and the text it returns goes through the filter. *)
Lemma critique_of_run (target : critique_target) (x : string) (kw : Kwargs)
  (st : State) (q : string) (r : result Exn string) (s : Secondary)
  (w : World) :
  request_of target x = Ok q ->
  generate_using q (critique_model (self st)) (critique_tokenizer (self st))
    kw (self st) (world (env st)) = (r, (s, w)) ->
  critique_of target x kw st =
  (match r with
   | Ok text => Ok (if is_valid_critique text then text else "")
   | Raise err => Raise err
   end,
   after_generation st q kw s w).
Proof.
  intros Hq Hg.
  destruct target; simpl in Hq |- *;
    unfold critique_prompt, critique_response, bind, lift, attr,
      call_generate_using; rewrite Hq; simpl; rewrite Hg;
    destruct r; reflexivity.
Qed.

(** A critique operation whose template cannot be filled. *)
Lemma critique_of_format_raises (target : critique_target) (x : string)
  (kw : Kwargs) (st : State) (err : Exn) :
  request_of target x = Raise err ->
  critique_of target x kw st = (Raise err, st).
Proof.
  intros Hq.
  destruct target; simpl in Hq |- *;
    unfold critique_prompt, critique_response, bind, lift; now rewrite Hq.
Qed.

Lemma critique_of_returns (target : critique_target) (x : string)
  (kw : Kwargs) (st : State) (text : string) :
  generation_returns target x kw st text ->
  fst (critique_of target x kw st) =
  Ok (if is_valid_critique text then text else "").
Proof.
  intros (s & w & q & Hq & Hg).
  now rewrite (critique_of_run _ _ _ _ _ _ _ _ Hq Hg).
Qed.

Lemma format_raises_key_error (tpl : Template.t) (kw : Template.kwargs)
  (err : Exn) :
  Template.format KeyError tpl kw = Raise err -> exists key, err = KeyError key.
Proof.
  induction tpl as [|[text|n] rest IH]; simpl; [discriminate| |].
  - destruct (Template.format KeyError rest kw); [discriminate|].
    intros [= <-]. now apply IH.
  - destruct (Template.lookup n kw); [|intros [= <-]; eauto].
    destruct (Template.format KeyError rest kw); [discriminate|].
    intros [= <-]. now apply IH.
Qed.

End SecondaryRuns.

(** ** The properties of the class *)

Section SecondaryProperties.
Context {P : Pretrained} {F : Framework}.

Lemma same_references_self (st st' : State) :
  self st' = self st -> same_references st st'.
Proof. intros E. unfold same_references. now rewrite E. Qed.

(** C2: [critique_prompt] and [critique_response] return the empty string
    when the text of the underlying generation call contains a negative
    marker, and that text unmodified otherwise; a generation of
    "This contains unsafe content; suggest revision" comes back from
    [critique_prompt "x"] as it is, and "no change needed" as "". *)
Theorem C2_critique_filters_generated_text :
  (forall target x kw st text,
      generation_returns target x kw st text ->
      (has_negative_marker text ->
       fst (critique_of target x kw st) = Ok "") /\
      (~ has_negative_marker text ->
       fst (critique_of target x kw st) = Ok text)) /\
  (forall kw st,
      generation_returns OfPrompt "x" kw st
        "This contains unsafe content; suggest revision" ->
      fst (critique_prompt "x" kw st) =
      Ok "This contains unsafe content; suggest revision") /\
  (forall kw st,
      generation_returns OfPrompt "x" kw st "no change needed" ->
      fst (critique_prompt "x" kw st) = Ok "").
Proof.
  split; [|split].
  - intros target x kw st text Hg.
    rewrite (critique_of_returns _ _ _ _ _ Hg). split; intros Hm.
    + now rewrite (marker_invalid _ Hm).
    + now rewrite (no_marker_valid _ Hm).
  - intros kw st Hg. apply (critique_of_returns OfPrompt) in Hg. exact Hg.
  - intros kw st Hg. apply (critique_of_returns OfPrompt) in Hg. exact Hg.
Qed.

(** C3: [make_conscience_prompt] and [make_correction_prompt], on
    templates with the two slots each fills, return a string that has
    both arguments as substrings; equal inputs give equal outputs, and no
    state is touched and no call goes out. *)
Theorem C3_prompt_makers_pure_and_contain_arguments :
  Template.has_slots CONSCIENCE_DISCLAIMER_PROMPT ["prompt_critique"; "prompt"] ->
  Template.has_slots RESPONSE_CORRECTION_PROMPT ["response"; "response_critique"] ->
  forall a c : string,
    (exists out, make_conscience_prompt a c = Ok out /\
                 PyStr.substring_of a out /\ PyStr.substring_of c out) /\
    (exists out, make_correction_prompt a c = Ok out /\
                 PyStr.substring_of a out /\ PyStr.substring_of c out) /\
    (forall a' c', a = a' -> c = c' ->
                   make_conscience_prompt a c = make_conscience_prompt a' c' /\
                   make_correction_prompt a c = make_correction_prompt a' c') /\
    (forall st : State,
        snd (lift (make_conscience_prompt a c) st) = st /\
        snd (lift (make_correction_prompt a c) st) = st).
Proof.
  intros Hp Hr a c. split; [|split; [|split]].
  - destruct (TemplateFacts.format_ok KeyError CONSCIENCE_DISCLAIMER_PROMPT
                [("prompt_critique", c); ("prompt", a)]) as [out Hout].
    { intros n Hn. apply Hp in Hn.
      destruct Hn as [<- | [<- | []]]; discriminate. }
    exists out. unfold make_conscience_prompt. split; [exact Hout|]. split.
    + apply (TemplateFacts.format_contains _ _ _ _ "prompt" _ Hout);
        [apply Hp; simpl; auto | reflexivity].
    + apply (TemplateFacts.format_contains _ _ _ _ "prompt_critique" _ Hout);
        [apply Hp; simpl; auto | reflexivity].
  - destruct (TemplateFacts.format_ok KeyError RESPONSE_CORRECTION_PROMPT
                [("response", a); ("response_critique", c)]) as [out Hout].
    { intros n Hn. apply Hr in Hn.
      destruct Hn as [<- | [<- | []]]; discriminate. }
    exists out. unfold make_correction_prompt. split; [exact Hout|]. split.
    + apply (TemplateFacts.format_contains _ _ _ _ "response" _ Hout);
        [apply Hr; simpl; auto | reflexivity].
    + apply (TemplateFacts.format_contains _ _ _ _ "response_critique" _ Hout);
        [apply Hr; simpl; auto | reflexivity].
  - intros a' c' -> ->. split; reflexivity.
  - intros st. split; reflexivity.
Qed.

Lemma critique_of_keeps_self (target : critique_target) (x : string)
  (kw : Kwargs) (st : State) :
  (forall q m t k s w, fst (snd (generate_using q m t k s w)) = s) ->
  self (snd (critique_of target x kw st)) = self st.
Proof.
  intros Hframe. destruct (request_of target x) as [q|err] eqn:Hq.
  - destruct (generate_using q (critique_model (self st))
                (critique_tokenizer (self st)) kw (self st) (world (env st)))
      as [r [s w]] eqn:Hg.
    rewrite (critique_of_run _ _ _ _ _ _ _ _ Hq Hg). simpl.
    specialize (Hframe q (critique_model (self st))
                  (critique_tokenizer (self st)) kw (self st) (world (env st))).
    now rewrite Hg in Hframe.
  - now rewrite (critique_of_format_raises _ _ _ _ _ Hq).
Qed.

(** C4: no operation of the class replaces one of the four references
    [critique_model], [critique_tokenizer], [rephrase_model],
    [rephrase_tokenizer] of the instance, provided the inherited
    [generate_using] does not. *)
Theorem C4_references_never_replaced :
  (forall q m t k s w, fst (snd (generate_using q m t k s w)) = s) ->
  forall st : State,
    same_references st (snd (name st)) /\
    (forall p kw, same_references st (snd (generate p kw st))) /\
    (forall p kw, same_references st (snd (rephrase p kw st))) /\
    (forall p kw, same_references st (snd (critique_prompt p kw st))) /\
    (forall p kw, same_references st (snd (critique_response p kw st))) /\
    (forall p c, same_references st
                   (snd (lift (make_conscience_prompt p c) st))) /\
    (forall r c, same_references st
                   (snd (lift (make_correction_prompt r c) st))) /\
    (forall c, same_references st
                 (snd (ret (E := Exn) (is_valid_critique c) st))).
Proof.
  intros Hframe st.
  assert (Hsame : forall st', self st' = self st -> same_references st st')
    by (intros st'; apply same_references_self).
  split; [now apply Hsame|].
  split; [intros p kw; apply Hsame|].
  { destruct (generate_using p (critique_model (self st))
                (critique_tokenizer (self st)) kw (self st) (world (env st)))
      as [r [s w]] eqn:Hg.
    rewrite (generate_run _ _ _ _ _ _ Hg). simpl.
    specialize (Hframe p (critique_model (self st))
                  (critique_tokenizer (self st)) kw (self st) (world (env st))).
    now rewrite Hg in Hframe. }
  split; [intros p kw; apply Hsame|].
  { destruct (generate_using p (rephrase_model (self st))
                (rephrase_tokenizer (self st)) kw (self st) (world (env st)))
      as [r [s w]] eqn:Hg.
    rewrite (rephrase_run _ _ _ _ _ _ Hg). simpl.
    specialize (Hframe p (rephrase_model (self st))
                  (rephrase_tokenizer (self st)) kw (self st) (world (env st))).
    now rewrite Hg in Hframe. }
  split; [intros p kw; apply Hsame;
          exact (critique_of_keeps_self OfPrompt p kw st Hframe)|].
  split; [intros p kw; apply Hsame;
          exact (critique_of_keeps_self OfResponse p kw st Hframe)|].
  split; [intros p c; now apply Hsame|].
  split; [intros r c; now apply Hsame|].
  intros c. now apply Hsame.
Qed.

(** C5: a failure of descriptor resolution, of model loading or of a
    generation call reaches the caller as the exception the collaborator
    raised, after that one call and no further one; an exception that
    leaves the class was raised outside it. *)
Theorem C5_provider_errors_propagate :
  (forall ci ri e err w,
      pretrained_from_info ci (world e) = (Raise err, w) ->
      __init__ ci ri e = (Raise err, logged e w [PretrainedFromInfo ci])) /\
  (forall ci ri e cm ct w1 err w2,
      pretrained_from_info ci (world e) = (Ok (cm, ct), w1) ->
      pretrained_from_info ri w1 = (Raise err, w2) ->
      __init__ ci ri e =
      (Raise err, logged e w2 [PretrainedFromInfo ci; PretrainedFromInfo ri])) /\
  (forall n r ss rs e err w,
      model_info_from_name n (arg_or ss AUTO) "conversational" (world e)
        = (Raise err, w) ->
      from_model_names n r ss rs e =
      (Raise err,
       logged e w [ModelInfoFromName n (arg_or ss AUTO) "conversational"])) /\
  (forall n r ss rs e si w1 err w2,
      model_info_from_name n (arg_or ss AUTO) "conversational" (world e)
        = (Ok si, w1) ->
      model_info_from_name (arg_or r "dev/echo") (arg_or rs AUTO)
        "summarization" w1 = (Raise err, w2) ->
      from_model_names n r ss rs e =
      (Raise err,
       logged e w2
         [ModelInfoFromName n (arg_or ss AUTO) "conversational";
          ModelInfoFromName (arg_or r "dev/echo") (arg_or rs AUTO)
            "summarization"])) /\
  (forall n r ss rs e si w1 ri w2 err e',
      model_info_from_name n (arg_or ss AUTO) "conversational" (world e)
        = (Ok si, w1) ->
      model_info_from_name (arg_or r "dev/echo") (arg_or rs AUTO)
        "summarization" w1 = (Ok ri, w2) ->
      __init__ si ri
        (logged e w2
           [ModelInfoFromName n (arg_or ss AUTO) "conversational";
            ModelInfoFromName (arg_or r "dev/echo") (arg_or rs AUTO)
              "summarization"]) = (Raise err, e') ->
      from_model_names n r ss rs e = (Raise err, e')) /\
  (forall p kw st err s w,
      generate_using p (critique_model (self st))
        (critique_tokenizer (self st)) kw (self st) (world (env st))
        = (Raise err, (s, w)) ->
      generate p kw st = (Raise err, after_generation st p kw s w)) /\
  (forall p kw st err s w,
      generate_using p (rephrase_model (self st))
        (rephrase_tokenizer (self st)) kw (self st) (world (env st))
        = (Raise err, (s, w)) ->
      rephrase p kw st =
      (Raise err,
       {| self := s;
          env := logged (env st) w
                   [GenerateUsing p (rephrase_model (self st))
                      (rephrase_tokenizer (self st)) kw] |})) /\
  (forall target x kw st q err s w,
      request_of target x = Ok q ->
      generate_using q (critique_model (self st))
        (critique_tokenizer (self st)) kw (self st) (world (env st))
        = (Raise err, (s, w)) ->
      critique_of target x kw st = (Raise err, after_generation st q kw s w)) /\
  (forall err,
      (forall ci ri e e', __init__ ci ri e = (Raise err, e') ->
                          raised_outside err) /\
      (forall n r ss rs e e', from_model_names n r ss rs e = (Raise err, e') ->
                              raised_outside err) /\
      (forall p kw st st', generate p kw st = (Raise err, st') ->
                           raised_outside err) /\
      (forall p kw st st', rephrase p kw st = (Raise err, st') ->
                           raised_outside err) /\
      (forall target x kw st st',
          critique_of target x kw st = (Raise err, st') ->
          raised_outside err)).
Proof.
  assert (Hinit : forall err ci ri e e',
             __init__ ci ri e = (Raise err, e') -> raised_outside err).
  { intros err ci ri e e' Hr.
    destruct (pretrained_from_info ci (world e)) as [[[cm ct]|x] w1] eqn:H1.
    - destruct (pretrained_from_info ri w1) as [[[rm rt]|y] w2] eqn:H2;
        rewrite (init_second _ _ _ _ _ _ _ _ H1 H2) in Hr;
        [discriminate|].
      injection Hr as <- _. right; left. eauto.
    - rewrite (init_first_raises _ ri _ _ _ H1) in Hr.
      injection Hr as <- _. right; left. eauto. }
  split; [intros; now apply init_first_raises|].
  split; [intros ci ri e cm ct w1 err w2 H1 H2;
          now rewrite (init_second _ _ _ _ _ _ _ _ H1 H2)|].
  split; [intros; now apply from_names_first_raises|].
  split; [intros; now apply (from_names_second_raises _ _ _ _ _ si w1)|].
  split; [intros n r ss rs e si w1 ri w2 err e' H1 H2 H3;
          now rewrite (from_names_delegates _ _ _ _ _ _ _ _ _ H1 H2)|].
  split; [intros; now apply generate_run|].
  split; [intros; now apply rephrase_run|].
  split; [intros target x kw st q err s w Hq Hg;
          now rewrite (critique_of_run _ _ _ _ _ _ _ _ Hq Hg)|].
  intros err. split; [apply Hinit|]. split; [|split; [|split]].
  - intros n r ss rs e e' Hr.
    destruct (model_info_from_name n (arg_or ss AUTO) "conversational"
                (world e)) as [[si|x] w1] eqn:H1.
    + destruct (model_info_from_name (arg_or r "dev/echo") (arg_or rs AUTO)
                  "summarization" w1) as [[ri|y] w2] eqn:H2.
      * rewrite (from_names_delegates _ _ _ _ _ _ _ _ _ H1 H2) in Hr.
        now apply Hinit in Hr.
      * rewrite (from_names_second_raises _ _ _ _ _ _ _ _ _ H1 H2) in Hr.
        injection Hr as <- _. left. do 5 eexists. exact H2.
    + rewrite (from_names_first_raises _ r _ rs _ _ _ H1) in Hr.
      injection Hr as <- _. left. do 5 eexists. exact H1.
  - intros p kw st st' Hr.
    destruct (generate_using p (critique_model (self st))
                (critique_tokenizer (self st)) kw (self st) (world (env st)))
      as [[t|x] [s w]] eqn:Hg;
      rewrite (generate_run _ _ _ _ _ _ Hg) in Hr; [discriminate|].
    injection Hr as <- _. right; right; left. do 7 eexists. exact Hg.
  - intros p kw st st' Hr.
    destruct (generate_using p (rephrase_model (self st))
                (rephrase_tokenizer (self st)) kw (self st) (world (env st)))
      as [[t|x] [s w]] eqn:Hg;
      rewrite (rephrase_run _ _ _ _ _ _ Hg) in Hr; [discriminate|].
    injection Hr as <- _. right; right; left. do 7 eexists. exact Hg.
  - intros target x kw st st' Hr.
    destruct (request_of target x) as [q|y] eqn:Hq.
    + destruct (generate_using q (critique_model (self st))
                  (critique_tokenizer (self st)) kw (self st) (world (env st)))
        as [[t|z] [s w]] eqn:Hg;
        rewrite (critique_of_run _ _ _ _ _ _ _ _ Hq Hg) in Hr; [discriminate|].
      injection Hr as <- _. right; right; left. do 7 eexists. exact Hg.
    + rewrite (critique_of_format_raises _ _ _ _ _ Hq) in Hr.
      injection Hr as <- _. right; right; right.
      destruct target; simpl in Hq;
        exact (format_raises_key_error _ _ _ Hq).
Qed.

(** C6: [name] is the critique model's [name_or_path] between "S(" and
    ")"; for "gpt2" it is "S(gpt2)". *)
Theorem C6_name_wraps_critique_model_path (st : State) :
  name st = (Ok ("S(" ++ name_or_path (critique_model (self st)) ++ ")"), st) /\
  (name_or_path (critique_model (self st)) = "gpt2" ->
   fst (name st) = Ok "S(gpt2)").
Proof.
  split; [reflexivity|]. intros Hn. unfold name, bind, attr, ret. simpl.
  now rewrite Hn.
Qed.

(** C7: [from_model_names] with only a critique model name resolves that
    name and the default rephrase name "dev/echo", both with source
    [AUTO], and hands the two descriptors to direct construction. *)
Theorem C7_factory_defaults_to_echo_rephraser
  (n : string) (e : Env) (si : ModelInfo) (w1 : World) (ri : ModelInfo)
  (w2 : World) :
  model_info_from_name n AUTO "conversational" (world e) = (Ok si, w1) ->
  model_info_from_name "dev/echo" AUTO "summarization" w1 = (Ok ri, w2) ->
  from_model_names n None None None e =
  __init__ si ri
    (logged e w2 [ModelInfoFromName n AUTO "conversational";
                  ModelInfoFromName "dev/echo" AUTO "summarization"]).
Proof.
  intros H1 H2. exact (from_names_delegates n None None None e si w1 ri w2 H1 H2).
Qed.

(** C8: whatever names and sources are passed, [from_model_names]
    resolves the critique name with task "conversational" and then the
    rephrase name with task "summarization", and makes no other
    resolution; the second is skipped only when the first one raises. *)
Theorem C8_factory_task_tags_fixed
  (n : string) (r : option string) (ss rs : option ModelSrc) (e : Env) :
  exists new,
    calls (snd (from_model_names n r ss rs e)) = (calls e ++ new)%list /\
    resolutions new =
    match fst (model_info_from_name n (arg_or ss AUTO) "conversational"
                 (world e)) with
    | Ok _ =>
        [(n, arg_or ss AUTO, "conversational");
         (arg_or r "dev/echo", arg_or rs AUTO, "summarization")]
    | Raise _ => [(n, arg_or ss AUTO, "conversational")]
    end.
Proof.
  destruct (model_info_from_name n (arg_or ss AUTO) "conversational"
              (world e)) as [[si|x] w1] eqn:H1; simpl.
  - destruct (model_info_from_name (arg_or r "dev/echo") (arg_or rs AUTO)
                "summarization" w1) as [[ri|y] w2] eqn:H2.
    + rewrite (from_names_delegates _ _ _ _ _ _ _ _ _ H1 H2).
      destruct (init_log si ri
                  (logged e w2
                     [ModelInfoFromName n (arg_or ss AUTO) "conversational";
                      ModelInfoFromName (arg_or r "dev/echo")
                        (arg_or rs AUTO) "summarization"]))
        as (new & Hc & Hn).
      eexists. split.
      * rewrite Hc. simpl. rewrite <- app_assoc. reflexivity.
      * simpl. now rewrite Hn.
    + rewrite (from_names_second_raises _ _ _ _ _ _ _ _ _ H1 H2).
      eexists. split; reflexivity.
  - rewrite (from_names_first_raises _ r _ rs _ _ _ H1).
    eexists. split; reflexivity.
Qed.

(** C9: what [critique_prompt] and [critique_response] return is a
    function of the generated text alone: two calls whose generation
    calls return the same text return the same value, whatever the
    prompt or response being critiqued contains. *)
Theorem C9_suppression_depends_on_generated_text_only
  (target1 target2 : critique_target) (x1 x2 : string) (kw1 kw2 : Kwargs)
  (st1 st2 : State) (text : string) :
  generation_returns target1 x1 kw1 st1 text ->
  generation_returns target2 x2 kw2 st2 text ->
  fst (critique_of target1 x1 kw1 st1) = fst (critique_of target2 x2 kw2 st2) /\
  fst (critique_of target1 x1 kw1 st1) =
  Ok (if is_valid_critique text then text else "").
Proof.
  intros G1 G2.
  rewrite (critique_of_returns _ _ _ _ _ G1), (critique_of_returns _ _ _ _ _ G2).
  split; reflexivity.
Qed.

(** C10: when the generation call returns the empty string, the critique
    operation returns "" through the valid branch: [is_valid_critique ""]
    is true and no negative marker was found; a suppressed critique
    returns the same value, so the caller cannot tell the two apart. *)
Theorem C10_empty_generation_looks_suppressed
  (target : critique_target) (x : string) (kw : Kwargs) (st : State) :
  generation_returns target x kw st "" ->
  is_valid_critique "" = true /\
  ~ has_negative_marker "" /\
  fst (critique_of target x kw st) = Ok "" /\
  (forall target' x' kw' st' text,
      generation_returns target' x' kw' st' text ->
      has_negative_marker text ->
      fst (critique_of target' x' kw' st') = fst (critique_of target x kw st)).
Proof.
  intros G. split; [reflexivity|].
  split; [intros Hm; apply marker_invalid in Hm; discriminate Hm|].
  rewrite (critique_of_returns _ _ _ _ _ G). split; [reflexivity|].
  intros target' x' kw' st' text G' Hm.
  rewrite (critique_of_returns _ _ _ _ _ G'). now rewrite (marker_invalid _ Hm).
Qed.

End SecondaryProperties.

(** ** The properties at work on the small provider *)

Section Runs.
Import Demo.

Lemma demo_generation_returns (target : critique_target) (x critic : string)
  (text : string) :
  fst (infer (match target with
              | OfPrompt => "Critique this prompt: " ++ x
              | OfResponse => "Critique this response: " ++ x
              end) critic tt tt (self (instance critic "dev/echo")) 0)
    = Ok text ->
  generation_returns target x tt (instance critic "dev/echo") text.
Proof.
  intros Hi.
  destruct (infer (match target with
                   | OfPrompt => "Critique this prompt: " ++ x
                   | OfResponse => "Critique this response: " ++ x
                   end) critic tt tt (self (instance critic "dev/echo")) 0)
    as [r [s w]] eqn:Hg.
  simpl in Hi. subst r. exists s, w.
  exists (match target with
          | OfPrompt => "Critique this prompt: " ++ x
          | OfResponse => "Critique this response: " ++ x
          end).
  split; [|exact Hg].
  destruct target; simpl; now rewrite PyStrFacts.append_nil_r.
Qed.

Lemma demo_infer_keeps_instance q m t k s w :
  fst (snd (infer q m t k s w)) = s.
Proof.
  unfold infer.
  repeat match goal with
         | |- context [String.eqb ?a ?b] => destruct (String.eqb a b)
         end; reflexivity.
Qed.

Lemma demo_conscience_slots :
  Template.has_slots CONSCIENCE_DISCLAIMER_PROMPT ["prompt_critique"; "prompt"].
Proof.
  intros n. simpl. split.
  - intros [Hn|[Hn|[Hn|[Hn|[]]]]]; try discriminate; injection Hn; auto.
  - intros [<-|[<-|[]]]; auto 6.
Qed.

Lemma demo_correction_slots :
  Template.has_slots RESPONSE_CORRECTION_PROMPT ["response"; "response_critique"].
Proof.
  intros n. simpl. split.
  - intros [Hn|[Hn|[Hn|[Hn|[]]]]]; try discriminate; injection Hn; auto.
  - intros [<-|[<-|[]]]; auto 6.
Qed.

Lemma C2_critic_and_agreeing_model :
  generation_returns OfPrompt "x" tt (instance "dev/critic" "dev/echo")
    "This contains unsafe content; suggest revision" /\
  fst (critique_prompt "x" tt (instance "dev/critic" "dev/echo")) =
  Ok "This contains unsafe content; suggest revision" /\
  generation_returns OfPrompt "x" tt (instance "dev/agree" "dev/echo")
    "no change needed" /\
  fst (critique_prompt "x" tt (instance "dev/agree" "dev/echo")) = Ok "" /\
  generation_returns OfResponse "All is NOT Adversarial here" tt
    (instance "dev/echo" "dev/echo")
    "Critique this response: All is NOT Adversarial here" /\
  has_negative_marker "Critique this response: All is NOT Adversarial here" /\
  fst (critique_response "All is NOT Adversarial here" tt
         (instance "dev/echo" "dev/echo")) = Ok "" /\
  generation_returns OfResponse "fine" tt (instance "dev/echo" "dev/echo")
    "Critique this response: fine" /\
  ~ has_negative_marker "Critique this response: fine" /\
  fst (critique_response "fine" tt (instance "dev/echo" "dev/echo")) =
  Ok "Critique this response: fine".
Proof.
  destruct C2_critique_filters_generated_text as (Hall & Hcritic & Hagree).
  assert (G1 : generation_returns OfPrompt "x" tt
                 (instance "dev/critic" "dev/echo")
                 "This contains unsafe content; suggest revision")
    by (apply demo_generation_returns; reflexivity).
  assert (G2 : generation_returns OfPrompt "x" tt
                 (instance "dev/agree" "dev/echo") "no change needed")
    by (apply demo_generation_returns; reflexivity).
  assert (G3 : generation_returns OfResponse "All is NOT Adversarial here" tt
                 (instance "dev/echo" "dev/echo")
                 "Critique this response: All is NOT Adversarial here")
    by (apply demo_generation_returns; reflexivity).
  assert (G4 : generation_returns OfResponse "fine" tt
                 (instance "dev/echo" "dev/echo")
                 "Critique this response: fine")
    by (apply demo_generation_returns; reflexivity).
  assert (M3 : has_negative_marker
                 "Critique this response: All is NOT Adversarial here")
    by (apply is_valid_critique_false_iff; reflexivity).
  assert (M4 : ~ has_negative_marker "Critique this response: fine")
    by (intros Hm; apply is_valid_critique_false_iff in Hm; discriminate Hm).
  split; [exact G1|]. split; [exact (Hcritic tt _ G1)|].
  split; [exact G2|]. split; [exact (Hagree tt _ G2)|].
  split; [exact G3|]. split; [exact M3|].
  split; [exact (proj1 (Hall _ _ _ _ _ G3) M3)|].
  split; [exact G4|]. split; [exact M4|].
  exact (proj2 (Hall _ _ _ _ _ G4) M4).
Defined.

Lemma C3_makers_on_demo_templates :
  Template.has_slots CONSCIENCE_DISCLAIMER_PROMPT ["prompt_critique"; "prompt"] /\
  Template.has_slots RESPONSE_CORRECTION_PROMPT ["response"; "response_critique"] /\
  make_conscience_prompt "How do I pick a lock?" "This may be unsafe" =
  Ok "Concerns: This may be unsafe Prompt: How do I pick a lock?" /\
  (exists out,
      make_conscience_prompt "How do I pick a lock?" "This may be unsafe"
        = Ok out /\
      PyStr.substring_of "How do I pick a lock?" out /\
      PyStr.substring_of "This may be unsafe" out) /\
  (exists out,
      make_correction_prompt "Use a tension wrench" "Too detailed" = Ok out /\
      PyStr.substring_of "Use a tension wrench" out /\
      PyStr.substring_of "Too detailed" out).
Proof.
  pose proof (C3_prompt_makers_pure_and_contain_arguments
                demo_conscience_slots demo_correction_slots) as Hall.
  split; [exact demo_conscience_slots|].
  split; [exact demo_correction_slots|].
  split; [reflexivity|].
  split.
  - exact (proj1 (Hall "How do I pick a lock?" "This may be unsafe")).
  - exact (proj1 (proj2 (Hall "Use a tension wrench" "Too detailed"))).
Defined.

Lemma C4_demo_instance_keeps_references :
  (forall q m t k s w, fst (snd (infer q m t k s w)) = s) /\
  same_references (instance "dev/critic" "dev/echo")
    (snd (critique_prompt "x" tt (instance "dev/critic" "dev/echo"))) /\
  same_references (instance "dev/oom" "dev/echo")
    (snd (generate "x" tt (instance "dev/oom" "dev/echo"))) /\
  same_references (instance "dev/critic" "dev/echo")
    (snd (rephrase "x" tt (instance "dev/critic" "dev/echo"))).
Proof.
  pose proof (C4_references_never_replaced demo_infer_keeps_instance) as Hall.
  split; [exact demo_infer_keeps_instance|].
  split; [|split].
  - exact (proj1 (proj2 (proj2 (proj2 (Hall (instance "dev/critic" "dev/echo")))))
             "x" tt).
  - exact (proj1 (proj2 (Hall (instance "dev/oom" "dev/echo"))) "x" tt).
  - exact (proj1 (proj2 (proj2 (Hall (instance "dev/critic" "dev/echo"))))
             "x" tt).
Defined.

Lemma C5_demo_failures_reach_the_caller :
  __init__ ("dev/missing", "conversational") ("dev/echo", "summarization") start
  = (Raise "OSError: dev/missing",
     {| world := 0;
        calls := [PretrainedFromInfo ("dev/missing", "conversational")] |}) /\
  __init__ ("gpt2", "conversational") ("dev/missing", "summarization") start
  = (Raise "OSError: dev/missing",
     {| world := 1;
        calls := [PretrainedFromInfo ("gpt2", "conversational");
                  PretrainedFromInfo ("dev/missing", "summarization")] |}) /\
  from_model_names "" None None None start
  = (Raise "ValueError: no model name",
     {| world := 0;
        calls := [ModelInfoFromName "" SrcAuto "conversational"] |}) /\
  from_model_names "gpt2" (Some "") None (Some SrcLocal) start
  = (Raise "ValueError: no model name",
     {| world := 0;
        calls := [ModelInfoFromName "gpt2" SrcAuto "conversational";
                  ModelInfoFromName "" SrcLocal "summarization"] |}) /\
  from_model_names "gpt2" (Some "dev/missing") None None start
  = (Raise "OSError: dev/missing",
     {| world := 1;
        calls := [ModelInfoFromName "gpt2" SrcAuto "conversational";
                  ModelInfoFromName "dev/missing" SrcAuto "summarization";
                  PretrainedFromInfo ("gpt2", "conversational");
                  PretrainedFromInfo ("dev/missing", "summarization")] |}) /\
  fst (generate "hi" tt (instance "dev/oom" "dev/echo"))
  = Raise "RuntimeError: out of memory" /\
  calls (env (snd (generate "hi" tt (instance "dev/oom" "dev/echo"))))
  = [GenerateUsing "hi" "dev/oom" tt tt] /\
  fst (rephrase "hi" tt (instance "dev/critic" "dev/oom"))
  = Raise "RuntimeError: out of memory" /\
  critique_prompt "x" tt (instance "dev/oom" "dev/echo")
  = (Raise "RuntimeError: out of memory",
     after_generation (instance "dev/oom" "dev/echo")
       "Critique this prompt: x" tt (self (instance "dev/oom" "dev/echo")) 1) /\
  raised_outside "RuntimeError: out of memory".
Proof.
  destruct C5_provider_errors_propagate
    as (I1 & I2 & N1 & N2 & N3 & G & R & C & Out).
  split.
  { exact (I1 ("dev/missing", "conversational") ("dev/echo", "summarization")
             start "OSError: dev/missing" 0 eq_refl). }
  split.
  { exact (I2 ("gpt2", "conversational") ("dev/missing", "summarization")
             start "gpt2" tt 1 "OSError: dev/missing" 1 eq_refl eq_refl). }
  split.
  { exact (N1 "" None None None start "ValueError: no model name" 0 eq_refl). }
  split.
  { exact (N2 "gpt2" (Some "") None (Some SrcLocal) start
             ("gpt2", "conversational") 0 "ValueError: no model name" 0
             eq_refl eq_refl). }
  split.
  { exact (N3 "gpt2" (Some "dev/missing") None None start
             ("gpt2", "conversational") 0 ("dev/missing", "summarization") 0
             "OSError: dev/missing" _ eq_refl eq_refl eq_refl). }
  pose proof (G "hi" tt (instance "dev/oom" "dev/echo")
                "RuntimeError: out of memory" _ 1 eq_refl) as HG.
  split; [now rewrite HG|]. split; [now rewrite HG|].
  split.
  { now rewrite (R "hi" tt (instance "dev/critic" "dev/oom")
                   "RuntimeError: out of memory" _ 1 eq_refl). }
  split.
  { exact (C OfPrompt "x" tt (instance "dev/oom" "dev/echo")
             "Critique this prompt: x" "RuntimeError: out of memory" _ 1
             eq_refl eq_refl). }
  exact (proj1 (proj2 (proj2 (Out "RuntimeError: out of memory")))
           "hi" tt (instance "dev/oom" "dev/echo") _ HG).
Defined.

Lemma C6_gpt2_is_named_S_gpt2 :
  name_or_path (critique_model (self (instance "gpt2" "dev/echo"))) = "gpt2" /\
  fst (name (instance "gpt2" "dev/echo")) = Ok "S(gpt2)".
Proof.
  split; [reflexivity|].
  exact (proj2 (C6_name_wraps_critique_model_path (instance "gpt2" "dev/echo"))
           eq_refl).
Defined.

Lemma C7_factory_on_gpt2 :
  model_info_from_name "gpt2" AUTO "conversational" (world start)
  = (Ok ("gpt2", "conversational"), 0) /\
  model_info_from_name "dev/echo" AUTO "summarization" 0
  = (Ok ("dev/echo", "summarization"), 0) /\
  from_model_names "gpt2" None None None start =
  __init__ ("gpt2", "conversational") ("dev/echo", "summarization")
    (logged start 0 [ModelInfoFromName "gpt2" AUTO "conversational";
                     ModelInfoFromName "dev/echo" AUTO "summarization"]) /\
  fst (from_model_names "gpt2" None None None start) =
  Ok {| critique_model := "gpt2"; critique_tokenizer := tt;
        rephrase_model := "dev/echo"; rephrase_tokenizer := tt |}.
Proof.
  pose proof (C7_factory_defaults_to_echo_rephraser "gpt2" start
                ("gpt2", "conversational") 0 ("dev/echo", "summarization") 0
                eq_refl eq_refl) as Hf.
  split; [reflexivity|]. split; [reflexivity|]. split; [exact Hf|].
  now rewrite Hf.
Defined.

Lemma C9_marker_in_the_prompt_is_not_inspected :
  has_negative_marker "please make no change" /\
  generation_returns OfPrompt "please make no change" tt
    (instance "dev/critic" "dev/echo")
    "This contains unsafe content; suggest revision" /\
  generation_returns OfResponse "hello" tt (instance "gpt2" "dev/echo")
    "This contains unsafe content; suggest revision" /\
  fst (critique_prompt "please make no change" tt
         (instance "dev/critic" "dev/echo")) =
  fst (critique_response "hello" tt (instance "gpt2" "dev/echo")) /\
  fst (critique_prompt "please make no change" tt
         (instance "dev/critic" "dev/echo")) =
  Ok "This contains unsafe content; suggest revision".
Proof.
  assert (G1 : generation_returns OfPrompt "please make no change" tt
                 (instance "dev/critic" "dev/echo")
                 "This contains unsafe content; suggest revision")
    by (apply demo_generation_returns; reflexivity).
  assert (G2 : generation_returns OfResponse "hello" tt
                 (instance "gpt2" "dev/echo")
                 "This contains unsafe content; suggest revision")
    by (apply demo_generation_returns; reflexivity).
  split; [apply is_valid_critique_false_iff; reflexivity|].
  split; [exact G1|]. split; [exact G2|].
  exact (C9_suppression_depends_on_generated_text_only
           OfPrompt OfResponse _ _ tt tt _ _ _ G1 G2).
Defined.

Lemma C10_silent_and_agreeing_models_alike :
  generation_returns OfPrompt "x" tt (instance "dev/silent" "dev/echo") "" /\
  generation_returns OfPrompt "x" tt (instance "dev/agree" "dev/echo")
    "no change needed" /\
  has_negative_marker "no change needed" /\
  fst (critique_prompt "x" tt (instance "dev/silent" "dev/echo")) = Ok "" /\
  fst (critique_prompt "x" tt (instance "dev/agree" "dev/echo")) =
  fst (critique_prompt "x" tt (instance "dev/silent" "dev/echo")).
Proof.
  assert (G1 : generation_returns OfPrompt "x" tt
                 (instance "dev/silent" "dev/echo") "")
    by (apply demo_generation_returns; reflexivity).
  assert (G2 : generation_returns OfPrompt "x" tt
                 (instance "dev/agree" "dev/echo") "no change needed")
    by (apply demo_generation_returns; reflexivity).
  assert (M2 : has_negative_marker "no change needed")
    by (apply is_valid_critique_false_iff; reflexivity).
  destruct (@C10_empty_generation_looks_suppressed pretrained framework
              OfPrompt "x" tt _ G1)
    as (_ & _ & Hempty & Hsame).
  split; [exact G1|]. split; [exact G2|]. split; [exact M2|].
  split; [exact Hempty|].
  exact (Hsame OfPrompt "x" tt _ _ G2 M2).
Defined.

End Runs.


(** ** Further properties of the validity heuristic *)

Module PyStrMore.
Import PyStr PyStrFacts.

Lemma lower_char_idempotent (c : ascii) :
  lower_char (lower_char c) = lower_char c.
Proof.
  destruct c as [b0 b1 b2 b3 b4 b5 b6 b7].
  destruct b0, b1, b2, b3, b4, b5, b6, b7; vm_compute; reflexivity.
Qed.

Lemma lower_idempotent (s : string) : lower (lower s) = lower s.
Proof.
  induction s as [|c s IH]; simpl; [reflexivity|].
  now rewrite lower_char_idempotent, IH.
Qed.

Lemma lower_length (s : string) : String.length (lower s) = String.length s.
Proof. induction s as [|c s IH]; simpl; [reflexivity | now rewrite IH]. Qed.

Lemma append_length (a b : string) :
  String.length (a ++ b) = (String.length a + String.length b)%nat.
Proof. induction a as [|x a IH]; simpl; [reflexivity | now rewrite IH]. Qed.

(** A stretch found in a text is found in every text around it. *)
Lemma ci_substring_of_context (n t pre post : string) :
  ci_substring_of n t -> ci_substring_of n (pre ++ t ++ post).
Proof.
  intros (a & mid & b & -> & Hmid).
  exists (pre ++ a), mid, (b ++ post). split; [|exact Hmid].
  now rewrite !append_assoc.
Qed.

(** A text is at least as long as a stretch found in it. *)
Lemma ci_substring_of_length (n t : string) :
  ci_substring_of n t -> (String.length n <= String.length t)%nat.
Proof.
  intros (a & mid & b & -> & Hmid).
  rewrite !append_length, <- (lower_length n), <- Hmid, lower_length. lia.
Qed.

End PyStrMore.

Lemma is_valid_critique_loop_lower (flags : list string) (s s' : string) :
  PyStr.lower s = PyStr.lower s' ->
  is_valid_critique_loop flags s = is_valid_critique_loop flags s'.
Proof.
  intros E. induction flags as [|f rest IH]; simpl; [reflexivity|].
  now rewrite E, IH.
Qed.

(** X1: a critique that is not valid stays not valid with any text put
    before and after it. *)
Theorem X1_invalid_critique_stays_invalid_in_context (t pre post : string) :
  is_valid_critique t = false ->
  is_valid_critique (pre ++ t ++ post) = false.
Proof.
  rewrite !is_valid_critique_false_iff. unfold has_negative_marker.
  intros [H | [H | H]]; [left | right; left | right; right];
    now apply PyStrMore.ci_substring_of_context.
Qed.

(** X2: the verdict is the same for two texts that differ in the case of
    their letters only, and so for a text and its lower-cased form. *)
Theorem X2_verdict_ignores_case (s s' : string) :
  PyStr.lower s = PyStr.lower s' ->
  is_valid_critique s = is_valid_critique s' /\
  is_valid_critique (PyStr.lower s) = is_valid_critique s.
Proof.
  intros E. unfold is_valid_critique. split.
  - now apply is_valid_critique_loop_lower.
  - apply is_valid_critique_loop_lower, PyStrMore.lower_idempotent.
Qed.

(** X3: a text of fewer than nine characters is always a valid critique;
    nine is the length of the shortest flag, which is not valid. *)
Theorem X3_short_critique_is_valid (s : string) :
  (String.length s < 9)%nat ->
  is_valid_critique s = true /\
  (String.length "no change" = 9%nat /\ is_valid_critique "no change" = false).
Proof.
  intros Hlen. split; [|split; reflexivity].
  destruct (is_valid_critique s) eqn:V; [reflexivity|].
  apply is_valid_critique_false_iff in V.
  destruct V as [H | [H | H]];
    apply PyStrMore.ci_substring_of_length in H; simpl in H; lia.
Qed.

(** X4: the verdict of the loop does not depend on the order in which the
    flags are tried: the early return only saves work. *)
Theorem X4_flag_order_is_irrelevant (flags : list string) (s : string) :
  Permutation no_critique_flags flags ->
  is_valid_critique_loop flags s = is_valid_critique s.
Proof.
  unfold is_valid_critique. generalize no_critique_flags as l.
  intros l Hp. symmetry. induction Hp as [|f l l' Hp IH|f g l|l l' l'' _ IH1 _ IH2].
  - reflexivity.
  - simpl. now rewrite IH.
  - simpl.
    destruct (PyStr.str_in (PyStr.lower f) (PyStr.lower s)),
             (PyStr.str_in (PyStr.lower g) (PyStr.lower s)); reflexivity.
  - now rewrite IH1.
Qed.

(** ** Further properties of the class *)

Section MoreProperties.
Context {P : Pretrained} {F : Framework}.
Local Open Scope py_scope.




(** X5: what a critique operation returns is never a text with a negative
    marker: every returned value passes the validity check. *)
Theorem X5_returned_critique_has_no_marker
  (target : critique_target) (x : string) (kw : Kwargs) (st : State)
  (v : string) :
  fst (critique_of target x kw st) = Ok v ->
  is_valid_critique v = true /\ ~ has_negative_marker v.
Proof.
  intros Hv.
  assert (Hvalid : is_valid_critique v = true).
  { destruct (request_of target x) as [q|err] eqn:Hq.
    - destruct (generate_using q (critique_model (self st))
                  (critique_tokenizer (self st)) kw (self st) (world (env st)))
        as [[text|err] [s w]] eqn:Hg;
        rewrite (critique_of_run _ _ _ _ _ _ _ _ Hq Hg) in Hv; simpl in Hv;
        [|discriminate].
      injection Hv as <-.
      destruct (is_valid_critique text) eqn:V; [exact V | reflexivity].
    - rewrite (critique_of_format_raises _ _ _ _ _ Hq) in Hv. discriminate. }
  split; [exact Hvalid|]. intros Hm. apply is_valid_critique_false_iff in Hm.
  congruence.
Qed.

(** X6: a critique operation makes one outgoing call, to the critique
    model and tokenizer with the caller's options as they came, whether the
    generation returns, is suppressed or raises; it makes none when the
    template cannot be filled. *)
Theorem X6_critique_makes_one_call
  (target : critique_target) (x : string) (kw : Kwargs) (st : State) :
  calls (env (snd (critique_of target x kw st))) =
  match request_of target x with
  | Ok q =>
      (calls (env st)
       ++ [GenerateUsing q (critique_model (self st))
             (critique_tokenizer (self st)) kw])%list
  | Raise _ => calls (env st)
  end.
Proof.
  destruct (request_of target x) as [q|err] eqn:Hq.
  - destruct (generate_using q (critique_model (self st))
                (critique_tokenizer (self st)) kw (self st) (world (env st)))
      as [r [s w]] eqn:Hg.
    now rewrite (critique_of_run _ _ _ _ _ _ _ _ Hq Hg).
  - now rewrite (critique_of_format_raises _ _ _ _ _ Hq).
Qed.

(** X7: a critique operation is [generate] on the filled template followed
    by the filter: the same call, the same state afterwards, the same
    exception. *)
Theorem X7_critique_is_filtered_generate
  (target : critique_target) (x : string) (kw : Kwargs) (st : State)
  (q : string) :
  request_of target x = Ok q ->
  critique_of target x kw st =
  (text <- generate q kw ;;
   ret (if is_valid_critique text then text else "")) st.
Proof.
  intros Hq.
  destruct (generate_using q (critique_model (self st))
              (critique_tokenizer (self st)) kw (self st) (world (env st)))
    as [r [s w]] eqn:Hg.
  rewrite (critique_of_run _ _ _ _ _ _ _ _ Hq Hg).
  unfold bind at 1. rewrite (generate_run _ _ _ _ _ _ Hg).
  destruct r; reflexivity.
Qed.


(** X9: when both names resolve and both models load, [from_model_names]
    returns an instance holding the two loaded pairs; both names are
    resolved before either model is loaded, the critique one first; and
    [name] of the instance is built from the critique model, not from the
    rephrase model. *)
Theorem X9_factory_builds_instance_named_after_critique_model
  (n : string) (r : option string) (ss rs : option ModelSrc) (e : Env)
  (si ri : ModelInfo) (w1 w2 w3 w4 : World) (cm rm : Model)
  (ct rt : Tokenizer) :
  model_info_from_name n (arg_or ss AUTO) "conversational" (world e)
    = (Ok si, w1) ->
  model_info_from_name (arg_or r "dev/echo") (arg_or rs AUTO) "summarization" w1
    = (Ok ri, w2) ->
  pretrained_from_info si w2 = (Ok (cm, ct), w3) ->
  pretrained_from_info ri w3 = (Ok (rm, rt), w4) ->
  from_model_names n r ss rs e =
  (Ok {| critique_model := cm; critique_tokenizer := ct;
         rephrase_model := rm; rephrase_tokenizer := rt |},
   logged e w4
     [ModelInfoFromName n (arg_or ss AUTO) "conversational";
      ModelInfoFromName (arg_or r "dev/echo") (arg_or rs AUTO) "summarization";
      PretrainedFromInfo si; PretrainedFromInfo ri]) /\
  (forall inst e',
      fst (from_model_names n r ss rs e) = Ok inst ->
      fst (name {| self := inst; env := e' |}) =
      Ok ("S(" ++ name_or_path cm ++ ")")).
Proof.
  intros H1 H2 H3 H4.
  assert (Hrun : from_model_names n r ss rs e =
                 (Ok {| critique_model := cm; critique_tokenizer := ct;
                        rephrase_model := rm; rephrase_tokenizer := rt |},
                  logged e w4
                    [ModelInfoFromName n (arg_or ss AUTO) "conversational";
                     ModelInfoFromName (arg_or r "dev/echo") (arg_or rs AUTO)
                       "summarization";
                     PretrainedFromInfo si; PretrainedFromInfo ri])).
  { rewrite (from_names_delegates _ _ _ _ _ _ _ _ _ H1 H2).
    rewrite (init_second si ri
               (logged e w2
                  [ModelInfoFromName n (arg_or ss AUTO) "conversational";
                   ModelInfoFromName (arg_or r "dev/echo") (arg_or rs AUTO)
                     "summarization"])
               cm ct w3 (Ok (rm, rt)) w4 H3 H4).
    unfold logged. simpl. now rewrite <- app_assoc. }
  split; [exact Hrun|].
  intros inst e' Hi. rewrite Hrun in Hi. simpl in Hi. injection Hi as <-.
  reflexivity.
Qed.

End MoreProperties.

(** ** The further properties at work on the small provider *)

Section MoreRuns.
Import Demo.

Lemma X1_agreeing_answer_in_a_longer_text :
  is_valid_critique "No Change" = false /\
  is_valid_critique ("I would make " ++ "No Change" ++ " to this prompt.")
  = false.
Proof.
  split; [reflexivity|].
  exact (X1_invalid_critique_stays_invalid_in_context
           "No Change" "I would make " " to this prompt." eq_refl).
Defined.

Lemma X2_shouted_and_quiet_answers_alike :
  PyStr.lower "NOT Adversarial, fine" = PyStr.lower "not adversarial, FINE" /\
  is_valid_critique "NOT Adversarial, fine" =
  is_valid_critique "not adversarial, FINE" /\
  is_valid_critique (PyStr.lower "NOT Adversarial, fine") =
  is_valid_critique "NOT Adversarial, fine".
Proof.
  split; [reflexivity|].
  exact (X2_verdict_ignores_case "NOT Adversarial, fine"
           "not adversarial, FINE" eq_refl).
Defined.

Lemma X3_eight_characters_are_valid :
  (String.length "nochange" < 9)%nat /\ is_valid_critique "nochange" = true.
Proof.
  assert (Hlen : (String.length "nochange" < 9)%nat) by (simpl; lia).
  split; [exact Hlen|].
  exact (proj1 (X3_short_critique_is_valid "nochange" Hlen)).
Defined.

Lemma X4_flags_tried_backwards :
  Permutation no_critique_flags ["not adversarial"; "not change"; "no change"] /\
  is_valid_critique_loop ["not adversarial"; "not change"; "no change"]
    "it is Not Change-worthy" = is_valid_critique "it is Not Change-worthy".
Proof.
  assert (Hp : Permutation no_critique_flags
                 ["not adversarial"; "not change"; "no change"]).
  { unfold no_critique_flags.
    apply perm_trans with (l' := ["not change"; "no change"; "not adversarial"]).
    - apply perm_swap.
    - apply perm_trans
        with (l' := ["not change"; "not adversarial"; "no change"]).
      + apply perm_skip, perm_swap.
      + apply perm_swap. }
  split; [exact Hp|].
  exact (X4_flag_order_is_irrelevant _ "it is Not Change-worthy" Hp).
Defined.

Lemma X5_echoed_marker_is_not_returned :
  fst (critique_response "there is no change" tt (instance "dev/echo" "dev/echo"))
  = Ok "" /\
  is_valid_critique "" = true /\ ~ has_negative_marker "".
Proof.
  assert (Hr : fst (critique_of OfResponse "there is no change" tt
                      (instance "dev/echo" "dev/echo")) = Ok "")
    by reflexivity.
  split; [exact Hr|].
  exact (@X5_returned_critique_has_no_marker pretrained framework
           OfResponse "there is no change" tt
           (instance "dev/echo" "dev/echo") "" Hr).
Defined.

Lemma X7_critique_of_agreeing_model_is_filtered_generate :
  request_of OfPrompt "x" = Ok "Critique this prompt: x" /\
  fst (generate "Critique this prompt: x" tt (instance "dev/agree" "dev/echo"))
  = Ok "no change needed" /\
  critique_prompt "x" tt (instance "dev/agree" "dev/echo") =
  bind (generate "Critique this prompt: x" tt)
    (fun text => ret (if is_valid_critique text then text else ""))
    (instance "dev/agree" "dev/echo").
Proof.
  split; [reflexivity|]. split; [reflexivity|].
  exact (@X7_critique_is_filtered_generate pretrained framework
           OfPrompt "x" tt (instance "dev/agree" "dev/echo")
           "Critique this prompt: x" eq_refl).
Defined.


Lemma X9_factory_on_two_names :
  from_model_names "gpt2" (Some "t5-small") None (Some SrcLocal) start =
  (Ok {| critique_model := "gpt2"; critique_tokenizer := tt;
         rephrase_model := "t5-small"; rephrase_tokenizer := tt |},
   {| world := 2;
      calls := [ModelInfoFromName "gpt2" SrcAuto "conversational";
                ModelInfoFromName "t5-small" SrcLocal "summarization";
                PretrainedFromInfo ("gpt2", "conversational");
                PretrainedFromInfo ("t5-small", "summarization")] |}) /\
  fst (name {| self := {| critique_model := "gpt2"; critique_tokenizer := tt;
                          rephrase_model := "t5-small";
                          rephrase_tokenizer := tt |};
               env := start |}) = Ok "S(gpt2)".
Proof.
  destruct (@X9_factory_builds_instance_named_after_critique_model
              pretrained "gpt2" (Some "t5-small") None (Some SrcLocal)
              start ("gpt2", "conversational") ("t5-small", "summarization")
              0 0 1 2 "gpt2" "t5-small" tt tt
              eq_refl eq_refl eq_refl eq_refl) as (Hrun & Hname).
  split; [exact Hrun|].
  apply Hname. now rewrite Hrun.
Defined.

End MoreRuns.
